(** * KuzuTestApp-Bridging-Header.h: the header text and a model of its
      preprocessing

    The repository's one source file is a C bridging header.  It is embedded
    here as the exact text of the file ([header_text]); the properties are
    stated over

    - the lexical structure of that text (lines, comments, directives), and
    - a small interpreter for the preprocessor directives the text uses
      (conditional groups, [#define], [#include]), run from an arbitrary
      compilation state.

    The header that the file includes, [KuzuHeaders/kuzu.h], is not part of
    the repository: the effect of including a file is a parameter of the
    interpreter. *)

From Stdlib Require Import String Ascii List Bool Arith Lia.
From stdpp Require Import base option strings gmap.
Import ListNotations.

Local Open Scope string_scope.

(** ** The source text *)

Module Source.

(** Line feed and double quote, by character code. *)
Definition nl : string := String "010"%char EmptyString.
Definition dq : string := String "034"%char EmptyString.

(** The name of the include-guard macro of the header, [guard] for short. *)
Definition KuzuTestApp_Bridging_Header_h : string :=
  "KuzuTestApp_Bridging_Header_h".

Abbreviation guard := KuzuTestApp_Bridging_Header_h (only parsing).

(** The path of the one included header. *)
Definition kuzu_path : string := "KuzuHeaders/kuzu.h".

(** The text of KuzuTestApp/KuzuTestApp/KuzuTestApp-Bridging-Header.h, one
    source line per row.  The last line ends in a space and is not terminated
    by a line feed. *)
Definition header_text : string :=
  "#ifndef KuzuTestApp_Bridging_Header_h" +:+ nl +:+
  "#define KuzuTestApp_Bridging_Header_h" +:+ nl +:+
  nl +:+
  "// Using local copy of the header with suggested path" +:+ nl +:+
  "#include " +:+ dq +:+ "KuzuHeaders/kuzu.h" +:+ dq +:+ nl +:+
  "// #import <Kuzu/kuzu.h> // Previous attempt" +:+ nl +:+
  "// #import <c_api/kuzu.h> // Didn't work" +:+ nl +:+
  "// #import <kuzu.h> // Reverted based on linter errors" +:+ nl +:+
  "// #import <Kuzu/c_api/kuzu.h> // Previous attempt" +:+ nl +:+
  nl +:+
  "#endif /* KuzuTestApp_Bridging_Header_h */ ".

End Source.

(** ** Characters and small string functions *)

Module Text.

Definition is_newline (c : ascii) : bool := Ascii.eqb c "010"%char.

(** Horizontal white space: space, tab, carriage return, vertical tab and
    form feed. *)
Definition is_space (c : ascii) : bool :=
  Ascii.eqb c " "%char || Ascii.eqb c "009"%char || Ascii.eqb c "013"%char
  || Ascii.eqb c "011"%char || Ascii.eqb c "012"%char.

(** Characters of a C identifier. *)
Definition is_ident_char (c : ascii) : bool :=
  let n := nat_of_ascii c in
  ((65 <=? n) && (n <=? 90) || (97 <=? n) && (n <=? 122)
   || (48 <=? n) && (n <=? 57) || (n =? 95))%nat.

Fixpoint rev_onto (s acc : string) : string :=
  match s with
  | EmptyString => acc
  | String c r => rev_onto r (String c acc)
  end.

Definition rev (s : string) : string := rev_onto s EmptyString.

Fixpoint drop_while (p : ascii -> bool) (s : string) : string :=
  match s with
  | EmptyString => EmptyString
  | String c r => if p c then drop_while p r else s
  end.

Fixpoint take_while (p : ascii -> bool) (s : string) : string :=
  match s with
  | EmptyString => EmptyString
  | String c r => if p c then String c (take_while p r) else EmptyString
  end.

(** Remove white space at both ends. *)
Definition trim (s : string) : string :=
  rev (drop_while is_space (rev (drop_while is_space s))).

(** The lines of a text: the pieces between line feeds.  A text with [n] line
    feeds has [n + 1] lines, the last of which is empty when the text ends in
    a line feed. *)
Fixpoint split_lines_from (cur : string) (s : string) : list string :=
  match s with
  | EmptyString => [rev cur]
  | String c r =>
      if is_newline c then rev cur :: split_lines_from EmptyString r
      else split_lines_from (String c cur) r
  end.

Definition split_lines (s : string) : list string :=
  split_lines_from EmptyString s.

(** The lines as an editor or a compiler numbers them: a final line feed ends
    the last line and starts no new one, and the empty text has no line. *)
Definition text_lines (s : string) : list string :=
  match s with
  | EmptyString => []
  | _ =>
      let ls := split_lines s in
      match last ls with
      | Some EmptyString => removelast ls
      | _ => ls
      end
  end.

Fixpoint count_char (p : ascii -> bool) (s : string) : nat :=
  match s with
  | EmptyString => 0
  | String c r => (if p c then 1 else 0) + count_char p r
  end.

(** Number of line feeds of a text. *)
Definition newline_count (s : string) : nat := count_char is_newline s.

(** Number of positions of [s] at which [pat] starts. *)
Fixpoint occurrences (pat s : string) : nat :=
  match s with
  | EmptyString => if String.prefix pat s then 1 else 0
  | String _ r => (if String.prefix pat s then 1 else 0) + occurrences pat r
  end.

End Text.

Import Source Text.


(** ** Comments: translation phase 3

    A comment is replaced by one space.  [//] and [/*] open a comment only
    outside string and character literals.  Line splicing (a backslash before
    a line feed) is left out: the header holds no backslash
    ([header_no_backslash]). *)

Module Lexer.

Inductive segment :=
| SCode (text : string)
| SLineComment (body : string)
| SBlockComment (body : string).

Inductive lex_mode :=
| InCode
| InLiteral (delim : ascii)
| InLineComment
| InBlockComment.

Definition is_quote (c : ascii) : bool :=
  Ascii.eqb c "034"%char || Ascii.eqb c "'"%char.

Definition flush_code (acc : string) (k : list segment) : list segment :=
  match acc with
  | EmptyString => k
  | _ => SCode (rev acc) :: k
  end.

(** [scan m acc s]: the segments of [s], read in mode [m], where [acc] holds
    the characters of the current segment, last one first. *)
Fixpoint scan (m : lex_mode) (acc : string) (s : string) {struct s}
  : list segment :=
  match s with
  | EmptyString =>
      match m with
      | InCode | InLiteral _ => flush_code acc []
      | InLineComment => [SLineComment (rev acc)]
      | InBlockComment => [SBlockComment (rev acc)]
      end
  | String c r =>
      match m with
      | InCode =>
          if Ascii.eqb c "/"%char then
            match r with
            | String c2 r2 =>
                if Ascii.eqb c2 "/"%char then
                  flush_code acc (scan InLineComment EmptyString r2)
                else if Ascii.eqb c2 "*"%char then
                  flush_code acc (scan InBlockComment EmptyString r2)
                else scan InCode (String c acc) r
            | EmptyString => scan InCode (String c acc) r
            end
          else if is_quote c then scan (InLiteral c) (String c acc) r
          else scan InCode (String c acc) r
      | InLiteral d =>
          if Ascii.eqb c d || is_newline c then scan InCode (String c acc) r
          else if Ascii.eqb c "\"%char then
            match r with
            | String c2 r2 =>
                if is_newline c2 then scan InCode (String c acc) r
                else scan (InLiteral d) (String c2 (String c acc)) r2
            | EmptyString => scan (InLiteral d) (String c acc) r
            end
          else scan (InLiteral d) (String c acc) r
      | InLineComment =>
          if is_newline c then
            SLineComment (rev acc) :: scan InCode (String c EmptyString) r
          else scan InLineComment (String c acc) r
      | InBlockComment =>
          if Ascii.eqb c "*"%char then
            match r with
            | String c2 r2 =>
                if Ascii.eqb c2 "/"%char then
                  SBlockComment (rev acc) :: scan InCode EmptyString r2
                else scan InBlockComment (String c acc) r
            | EmptyString => scan InBlockComment (String c acc) r
            end
          else scan InBlockComment (String c acc) r
      end
  end.

Definition segments (s : string) : list segment := scan InCode EmptyString s.

Definition segment_text (g : segment) : string :=
  match g with
  | SCode t => t
  | SLineComment _ | SBlockComment _ => " "
  end.

(** The text the directives are read from: every comment is one space. *)
Definition active_text (s : string) : string :=
  fold_right (fun g acc => segment_text g +:+ acc) EmptyString (segments s).

(** The bodies of the comments, in the order of the text. *)
Definition comments (s : string) : list string :=
  omap (fun g => match g with
                 | SCode _ => None
                 | SLineComment b | SBlockComment b => Some b
                 end) (segments s).

End Lexer.

(** ** Directives: translation phase 4, the syntax *)

Module Syntax.

Inductive include_kind := KInclude | KImport.
Inductive include_form := Quoted | Angled.

Record header_ref := HeaderRef {
  h_kind : include_kind;
  h_form : include_form;
  h_path : string
}.

#[global] Instance include_kind_eq_dec : EqDecision include_kind.
Proof. solve_decision. Defined.

#[global] Instance include_form_eq_dec : EqDecision include_form.
Proof. solve_decision. Defined.

#[global] Instance header_ref_eq_dec : EqDecision header_ref.
Proof. solve_decision. Defined.

Inductive directive :=
| DIfndef (name : string)
| DIfdef (name : string)
| DElse
| DEndif
| DDefine (name body : string)
| DUndef (name : string)
| DInclude (h : header_ref)
| DError (msg : string)
| DOther (name arg : string).

Inductive line :=
| LBlank
| LDirective (d : directive)
| LCode (text : string).

(** A header name: the characters after the opening delimiter up to the
    closing one, which has to be there. *)
Definition delimited (close : ascii) (s : string) : option string :=
  let differs c := negb (Ascii.eqb c close) in
  match drop_while differs s with
  | EmptyString => None
  | String _ _ => Some (take_while differs s)
  end.

Definition parse_header_name (arg : string) : option (include_form * string) :=
  match arg with
  | EmptyString => None
  | String c r =>
      if Ascii.eqb c "034"%char then
        p ← delimited "034"%char r; Some (Quoted, p)
      else if Ascii.eqb c "<"%char then
        p ← delimited ">"%char r; Some (Angled, p)
      else None
  end.

Definition parse_include (k : include_kind) (name arg : string) : directive :=
  match parse_header_name arg with
  | Some (f, p) => DInclude (HeaderRef k f p)
  | None => DOther name arg
  end.

(** The directive of a line, from the text after its [#]. *)
Definition parse_directive (s : string) : directive :=
  let name := take_while is_ident_char s in
  let arg := trim (drop_while is_ident_char s) in
  let ident := take_while is_ident_char arg in
  let rest := trim (drop_while is_ident_char arg) in
  if String.eqb name "ifndef" then
    (if String.eqb ident "" then DOther name arg else DIfndef ident)
  else if String.eqb name "ifdef" then
    (if String.eqb ident "" then DOther name arg else DIfdef ident)
  else if String.eqb name "else" then DElse
  else if String.eqb name "endif" then DEndif
  else if String.eqb name "define" then
    (if String.eqb ident "" then DOther name arg else DDefine ident rest)
  else if String.eqb name "undef" then
    (if String.eqb ident "" then DOther name arg else DUndef ident)
  else if String.eqb name "include" then parse_include KInclude name arg
  else if String.eqb name "import" then parse_include KImport name arg
  else if String.eqb name "error" then DError arg
  else DOther name arg.

Definition parse_line (s : string) : line :=
  match trim s with
  | EmptyString => LBlank
  | String c r =>
      if Ascii.eqb c "#"%char then LDirective (parse_directive (trim r))
      else LCode (String c r)
  end.

(** The lines of a source text, comments removed. *)
Definition parse_file (s : string) : list line :=
  map parse_line (text_lines (Lexer.active_text s)).

Definition directives (ls : list line) : list directive :=
  omap (fun l => match l with LDirective d => Some d | _ => None end) ls.

Definition code_lines (ls : list line) : list string :=
  omap (fun l => match l with LCode t => Some t | _ => None end) ls.

(** The headers the active directives of a file name. *)
Definition active_includes (ls : list line) : list header_ref :=
  omap (fun d => match d with DInclude h => Some h | _ => None end)
       (directives ls).

(** The macros the active directives of a file define and undefine. *)
Definition defined_macros (ls : list line) : list string :=
  omap (fun d => match d with DDefine n _ => Some n | _ => None end)
       (directives ls).

Definition undefined_macros (ls : list line) : list string :=
  omap (fun d => match d with DUndef n => Some n | _ => None end)
       (directives ls).

(** An include directive inside a comment: the comment's body reads as an
    include or import line. *)
Definition commented_include (body : string) : option header_ref :=
  match parse_line body with
  | LDirective (DInclude h) => Some h
  | _ => None
  end.

Definition commented_includes (s : string) : list header_ref :=
  omap commented_include (Lexer.comments s).

End Syntax.

Import Lexer Syntax.

(** ** Directives: translation phase 4, the semantics

    A compilation state holds the macro environment and the text handed to
    the compiler so far.  Code lines are passed on as they are (macro
    replacement inside code is not modelled; the header has no code line). *)

Module Semantics.

Inductive pp_error :=
| HeaderNotFound (h : header_ref)
| IncludeTooDeep (h : header_ref)
| ErrorDirective (msg : string)
| UnsupportedDirective (name arg : string)
| ElseWithoutIf
| ElseAfterElse
| EndifWithoutIf
| UnterminatedConditional.

Inductive result (A : Type) :=
| Ok (a : A)
| Err (e : pp_error).

Arguments Ok {A} a.
Arguments Err {A} e.

Definition result_map {A B} (f : A -> B) (r : result A) : result B :=
  match r with
  | Ok a => Ok (f a)
  | Err e => Err e
  end.

Definition result_bind {A B} (r : result A) (f : A -> result B) : result B :=
  match r with
  | Ok a => f a
  | Err e => Err e
  end.

Record pp_state := PPState {
  macros : gmap string string;
  output : list string
}.

Definition empty_state : pp_state := PPState ∅ [].

Definition is_defined (n : string) (st : pp_state) : bool :=
  match macros st !! n with
  | Some _ => true
  | None => false
  end.

Definition define (n body : string) (st : pp_state) : pp_state :=
  PPState (<[n := body]> (macros st)) (output st).

Definition undefine (n : string) (st : pp_state) : pp_state :=
  PPState (delete n (macros st)) (output st).

Definition emit (t : string) (st : pp_state) : pp_state :=
  PPState (macros st) (output st ++ [t]).

(** One open conditional group: whether the enclosing group is live, the
    value of the group's condition, and whether its [#else] was passed. *)
Record frame := Frame {
  f_outer : bool;
  f_cond : bool;
  f_else : bool
}.

Definition frame_live (f : frame) : bool :=
  f_outer f && xorb (f_cond f) (f_else f).

Definition live (stack : list frame) : bool :=
  match stack with
  | [] => true
  | f :: _ => frame_live f
  end.

Definition outer_live (stack : list frame) : bool :=
  match stack with
  | [] => true
  | f :: _ => f_outer f
  end.

(** Directive names that open a conditional group. *)
Definition opens_group (n : string) : bool :=
  String.eqb n "if" || String.eqb n "ifdef" || String.eqb n "ifndef".

(** What including a header does to the compilation state. *)
Definition includer := header_ref -> pp_state -> result pp_state.

Section Run.

Variable include_file : includer.

(** A directive in a live group.  The conditions of [#if] and [#elif] are not
    evaluated: these and the directives with no reading here ([DOther]) are
    reported as unsupported where their effect would matter. *)
Definition exec_live (d : directive) (st : pp_state) : result pp_state :=
  match d with
  | DDefine n body => Ok (define n body st)
  | DUndef n => Ok (undefine n st)
  | DInclude h => include_file h st
  | DError msg => Err (ErrorDirective msg)
  | DOther n arg => Err (UnsupportedDirective n arg)
  | DIfndef _ | DIfdef _ | DElse | DEndif => Ok st
  end.

Definition exec_directive (d : directive) (stack : list frame)
    (st : pp_state) : result (list frame * pp_state) :=
  match d with
  | DIfndef n =>
      Ok (Frame (live stack) (negb (is_defined n st)) false :: stack, st)
  | DIfdef n =>
      Ok (Frame (live stack) (is_defined n st) false :: stack, st)
  | DElse =>
      match stack with
      | [] => Err ElseWithoutIf
      | f :: k =>
          if f_else f then Err ElseAfterElse
          else Ok (Frame (f_outer f) (f_cond f) true :: k, st)
      end
  | DEndif =>
      match stack with
      | [] => Err EndifWithoutIf
      | _ :: k => Ok (k, st)
      end
  | _ =>
      if live stack then result_map (pair stack) (exec_live d st)
      else
        match d with
        | DOther n arg =>
            if opens_group n then Ok (Frame false false false :: stack, st)
            else if String.eqb n "elif" && outer_live stack then
              Err (UnsupportedDirective n arg)
            else Ok (stack, st)
        | _ => Ok (stack, st)
        end
  end.

Definition step (l : line) (stack : list frame) (st : pp_state)
  : result (list frame * pp_state) :=
  match l with
  | LBlank => Ok (stack, st)
  | LCode t => Ok (stack, if live stack then emit t st else st)
  | LDirective d => exec_directive d stack st
  end.

Fixpoint run (ls : list line) (stack : list frame) (st : pp_state)
  : result pp_state :=
  match ls with
  | [] =>
      match stack with
      | [] => Ok st
      | _ :: _ => Err UnterminatedConditional
      end
  | l :: ls' =>
      match step l stack st with
      | Ok (stack', st') => run ls' stack' st'
      | Err e => Err e
      end
  end.

(** Processing a source text from a compilation state. *)
Definition process_file (text : string) (st : pp_state) : result pp_state :=
  run (parse_file text) [] st.

(** Processing the bridging header. *)
Definition process_header (st : pp_state) : result pp_state :=
  process_file header_text st.

(** Processing the header [n] times in a row. *)
Fixpoint process_times (n : nat) (st : pp_state) : result pp_state :=
  match n with
  | 0 => Ok st
  | S k => result_bind (process_header st) (process_times k)
  end.

End Run.

(** The header the bridging header names. *)
Definition kuzu_ref : header_ref := HeaderRef KInclude Quoted kuzu_path.

(** A translation unit that includes [KuzuHeaders/kuzu.h] directly. *)
Definition direct_include_text : string :=
  "#include " +:+ dq +:+ kuzu_path +:+ dq +:+ nl.

(** An includer that includes nothing: with it, processing a file shows what
    the file's own text does. *)
Definition no_include : includer := fun _ st => Ok st.

(** An includer that resolves one header only. *)
Definition only (h : header_ref) (inc : includer) : includer :=
  fun h' st => if decide (h' = h) then inc h' st else Err (HeaderNotFound h').

(** An includer over a file system given as a map from paths to texts; the
    nesting of includes is bounded by [depth].  Both forms and both kinds of
    directive look the path up in the same map. *)
Fixpoint fs_includer (depth : nat) (fs : gmap string string) : includer :=
  fun h st =>
    match depth with
    | 0 => Err (IncludeTooDeep h)
    | S d =>
        match fs !! h_path h with
        | None => Err (HeaderNotFound h)
        | Some text => process_file (fs_includer d fs) text st
        end
    end.

(** A file system holding a one-declaration stand-in for the vendored
    header, which is not part of the repository. *)
Definition sample_fs : gmap string string :=
  {[ kuzu_path := "typedef struct kuzu_database kuzu_database;" +:+ nl ]}.

Definition sample_includer : includer := fs_includer 8 sample_fs.

End Semantics.

Import Semantics.

(** ** Interleavings of two sequences of operations *)

Module Schedule.

Inductive interleave {A : Type} : list A -> list A -> list A -> Prop :=
| interleave_nil : interleave [] [] []
| interleave_left x l r t :
    interleave l r t -> interleave (x :: l) r (x :: t)
| interleave_right x l r t :
    interleave l r t -> interleave l (x :: r) (x :: t).

End Schedule.

Import Schedule.

(** ** Words of a file and what a file adds to the program text *)

Module Vocabulary.

Definition flush_word (cur : string) (k : list string) : list string :=
  match cur with
  | EmptyString => k
  | _ => rev cur :: k
  end.

(** The maximal runs of identifier characters of a text; [cur] holds the
    characters of the current run, last one first. *)
Fixpoint words_from (cur : string) (s : string) : list string :=
  match s with
  | EmptyString => flush_word cur []
  | String c r =>
      if is_ident_char c then words_from (String c cur) r
      else flush_word cur (words_from EmptyString r)
  end.

Definition words (s : string) : list string := words_from EmptyString s.

(** The words of a directive: its name, the macro it names and the words of
    its replacement list or argument.  A header name is a file name and has
    no words. *)
Definition directive_words (d : directive) : list string :=
  match d with
  | DIfndef n => ["ifndef"; n]
  | DIfdef n => ["ifdef"; n]
  | DElse => ["else"]
  | DEndif => ["endif"]
  | DDefine n body => "define" :: n :: words body
  | DUndef n => ["undef"; n]
  | DInclude h =>
      [match h_kind h with KInclude => "include" | KImport => "import" end]
  | DError msg => "error" :: words msg
  | DOther name arg => name :: words arg
  end.

Definition line_words (l : line) : list string :=
  match l with
  | LBlank => []
  | LDirective d => directive_words d
  | LCode t => words t
  end.

(** Every word of a file outside its comments, directives included. *)
Definition file_words (ls : list line) : list string :=
  flat_map line_words ls.

(** The replacement lists of the macros a file defines. *)
Definition macro_bodies (ls : list line) : list string :=
  omap (fun d => match d with DDefine _ b => Some b | _ => None end)
       (directives ls).

Definition nonempty (s : string) : bool :=
  match s with
  | EmptyString => false
  | String _ _ => true
  end.

(** The program text a file can add to a translation unit by itself: its
    code lines, and the replacement lists its macros expand to. *)
Definition contributed_text (ls : list line) : list string :=
  code_lines ls ++ filter (fun b => nonempty b = true) (macro_bodies ls).

(** Words that name a concurrency construct or a shared mutable object in C
    and Objective-C: the C11 qualifiers and storage classes, and the names of
    C11 threads and atomics, POSIX threads and semaphores, libdispatch and
    the Foundation and os locks, threads and queues. *)
Definition concurrency_keywords : list string :=
  [ "_Atomic"; "_Thread_local"; "thread_local"; "volatile"; "static";
    "extern"; "synchronized"; "atomic"; "nonatomic"; "call_once";
    "NSLock"; "NSRecursiveLock"; "NSCondition"; "NSConditionLock";
    "NSThread"; "NSOperation"; "NSOperationQueue" ].

Definition concurrency_prefixes : list string :=
  [ "pthread_"; "sem_"; "thrd_"; "mtx_"; "cnd_"; "tss_"; "atomic_";
    "dispatch_"; "OSAtomic"; "OSSpinLock"; "os_unfair_lock"; "__sync_";
    "__atomic_" ].

Definition is_concurrency_word (w : string) : bool :=
  existsb (String.eqb w) concurrency_keywords
  || existsb (fun p => String.prefix p w) concurrency_prefixes.

(** A header whose one macro takes a lock, for comparison. *)
Definition locking_header_text : string :=
  "#ifndef Lock_h" +:+ nl +:+
  "#define Lock_h" +:+ nl +:+
  "#define KUZU_LOCK pthread_mutex_lock(&kuzu_mutex)" +:+ nl +:+
  "#endif" +:+ nl.

End Vocabulary.

Import Vocabulary.

(** ** Assumptions on the included header

    [KuzuHeaders/kuzu.h] is not in the repository.  Two properties of it are
    named here, as properties of the includer. *)

(** Including kuzu.h does not undefine the guard macro of the bridging
    header. *)
Definition keeps_guard (inc : includer) : Prop :=
  forall st st',
    inc kuzu_ref st = Ok st' ->
    is_defined guard st = true -> is_defined guard st' = true.

(** What kuzu.h passes to the compiler does not depend on the guard macro of
    the bridging header. *)
Definition guard_blind (inc : includer) : Prop :=
  forall st,
    result_map output (inc kuzu_ref (define guard "" st))
    = result_map output (inc kuzu_ref st).

(** Including any header whatever leaves the macro [n] defined if it was. *)
Definition keeps_macro (n : string) (inc : includer) : Prop :=
  forall h st st',
    inc h st = Ok st' -> is_defined n st = true -> is_defined n st' = true.

(** The line is an [#undef] of the macro [n]. *)
Definition undefines (n : string) (l : line) : bool :=
  match l with
  | LDirective (DUndef m) => String.eqb m n
  | _ => false
  end.

(** No line of the text is an [#undef] of the macro [n]. *)
Definition never_undefines (n : string) (text : string) : bool :=
  forallb (fun l => negb (undefines n l)) (parse_file text).

(** [pat] occurs in [s]. *)
Definition has (pat s : string) : bool :=
  negb (occurrences pat s =? 0)%nat.

(** A line on which no comment can open inside an angle-bracket header name:
    it does not hold both a [<] and a comment opener. *)
Definition plain_line (l : string) : bool :=
  negb (has "<" l && (has "//" l || has "/*" l)).

(** A text that a preprocessor reads as the interpreter does: it is spelled
    without backslash (line splicing, escapes), carriage return, trigraph
    and [%:] digraph, and all its lines are plain. *)
Definition plain_source (text : string) : bool :=
  (count_char (Ascii.eqb "\"%char) text =? 0)%nat
  && (count_char (Ascii.eqb "013"%char) text =? 0)%nat
  && negb (has "??" text)
  && negb (has "%:" text)
  && forallb plain_line (split_lines text).

(** A line the interpreter has a full reading for: a blank line or one of the
    directives it executes.  Code lines, in which macros and the [_Pragma]
    operator would be expanded, and the directives it reports as unsupported
    are left out. *)
Definition supported_line (l : line) : bool :=
  match l with
  | LBlank => true
  | LDirective (DOther _ _) => false
  | LDirective _ => true
  | LCode _ => false
  end.

(** A text made of comments, blank lines and supported directives only. *)
Definition directives_only (text : string) : bool :=
  forallb supported_line (parse_file text).

(** A piece of a translation unit that undefines the guard. *)
Definition undef_guard_text : string :=
  "#undef KuzuTestApp_Bridging_Header_h" +:+ nl.

(** A file system whose kuzu.h undefines the guard of the bridging header
    after its declaration. *)
Definition undef_fs : gmap string string :=
  {[ kuzu_path :=
       "typedef struct kuzu_database kuzu_database;" +:+ nl +:+
       "#undef KuzuTestApp_Bridging_Header_h" +:+ nl ]}.

Definition undef_includer : includer := fs_includer 8 undef_fs.

(** A piece of a translation unit: two macro directives around a direct
    include of kuzu.h, with a comment. *)
Definition sample_unit_text : string :=
  "#define KUZU_DEMO 1 /* on */" +:+ nl +:+
  "#include " +:+ dq +:+ "KuzuHeaders/kuzu.h" +:+ dq +:+ nl +:+
  "#undef KUZU_DEMO" +:+ nl.

(** The state after the header was processed from the empty state with the
    stand-in file system, and the state after [sample_unit_text] then. *)
Definition sample_first_state : pp_state :=
  emit "typedef struct kuzu_database kuzu_database;"
    (define guard "" empty_state).

Definition sample_later_state : pp_state :=
  emit "typedef struct kuzu_database kuzu_database;" sample_first_state.

(** * Properties *)

(** ** The shape of the header *)

Example header_size : String.length header_text = 397.
Proof. vm_compute. reflexivity. Qed.

Example header_no_backslash :
  count_char (Ascii.eqb "\"%char) header_text = 0.
Proof. vm_compute. reflexivity. Qed.

Lemma parse_header :
  parse_file header_text =
  [ LDirective (DIfndef guard);
    LDirective (DDefine guard "");
    LBlank;
    LBlank;
    LDirective (DInclude kuzu_ref);
    LBlank; LBlank; LBlank; LBlank;
    LBlank;
    LDirective DEndif ].
Proof. vm_compute. reflexivity. Qed.

Lemma parse_direct_include :
  parse_file direct_include_text = [LDirective (DInclude kuzu_ref)].
Proof. vm_compute. reflexivity. Qed.

(** ** What processing the header does *)

Section Processing.

Variable inc : includer.

(** The header, run from any state: nothing when the guard is defined;
    otherwise the guard is defined and kuzu.h is included. *)
Lemma process_header_eq (st : pp_state) :
  process_header inc st =
  if is_defined guard st then Ok st
  else inc kuzu_ref (define guard "" st).
Proof.
  unfold process_header, process_file. rewrite parse_header.
  cbn [run step exec_directive live].
  destruct (is_defined guard st); cbn.
  - reflexivity.
  - destruct (inc kuzu_ref (define guard "" st)); reflexivity.
Qed.

(** A translation unit that includes kuzu.h directly. *)
Lemma process_direct_eq (st : pp_state) :
  process_file inc direct_include_text st = inc kuzu_ref st.
Proof.
  unfold process_file. rewrite parse_direct_include. cbn.
  destruct (inc kuzu_ref st); reflexivity.
Qed.

End Processing.

Lemma is_defined_define (n b : string) (st : pp_state) :
  is_defined n (define n b st) = true.
Proof. unfold is_defined, define. cbn. by rewrite lookup_insert_eq. Qed.

Lemma process_header_no_include (st : pp_state) :
  process_header no_include st =
  Ok (if is_defined guard st then st else define guard "" st).
Proof. rewrite process_header_eq. by destruct (is_defined guard st). Qed.

(** The stand-in file system: including kuzu.h passes its one declaration on
    and leaves the macros alone. *)
Lemma sample_includer_kuzu (st : pp_state) :
  sample_includer kuzu_ref st
  = Ok (emit "typedef struct kuzu_database kuzu_database;" st).
Proof. reflexivity. Qed.

Lemma sample_keeps_guard : keeps_guard sample_includer.
Proof.
  intros st st' H Hdef. rewrite sample_includer_kuzu in H.
  injection H as <-. exact Hdef.
Qed.

Lemma sample_guard_blind : guard_blind sample_includer.
Proof. intros st. by rewrite !sample_includer_kuzu. Qed.

(** ** Include directives *)

(** C1: the file has exactly one active include directive, an [#include] of
    the quoted path KuzuHeaders/kuzu.h.  Every other place of the text where
    an include or import directive starts lies in a comment (the text has as
    many such places as it has active and commented-out directives, and one
    only once the comments are removed), so processing the file never asks
    for another header: restricting the includer to kuzu.h changes nothing. *)
Theorem one_active_include :
  active_includes (parse_file header_text)
  = [HeaderRef KInclude Quoted "KuzuHeaders/kuzu.h"]
  /\ occurrences "#include" header_text + occurrences "#import" header_text
     = length (active_includes (parse_file header_text))
       + length (commented_includes header_text)
  /\ occurrences "#include" (active_text header_text)
     + occurrences "#import" (active_text header_text) = 1
  /\ forall (inc : includer) (st : pp_state),
       process_header inc st = process_header (only kuzu_ref inc) st.
Proof.
  split; [by vm_compute|]. split; [by vm_compute|]. split; [by vm_compute|].
  intros inc st. rewrite !process_header_eq.
  destruct (is_defined guard st); [done|].
  unfold only. by rewrite decide_True.
Qed.

(** C4: the comments of the file hold exactly four commented-out include
    directives, all of them [#import]s of an angle-bracket path, for the paths
    Kuzu/kuzu.h, c_api/kuzu.h, kuzu.h and Kuzu/c_api/kuzu.h, in this order;
    the two other comments hold no include directive. *)
Theorem commented_include_paths :
  commented_includes header_text
  = [ HeaderRef KImport Angled "Kuzu/kuzu.h";
      HeaderRef KImport Angled "c_api/kuzu.h";
      HeaderRef KImport Angled "kuzu.h";
      HeaderRef KImport Angled "Kuzu/c_api/kuzu.h" ]
  /\ comments header_text
     = [ " Using local copy of the header with suggested path";
         " #import <Kuzu/kuzu.h> // Previous attempt";
         " #import <c_api/kuzu.h> // Didn't work";
         " #import <kuzu.h> // Reverted based on linter errors";
         " #import <Kuzu/c_api/kuzu.h> // Previous attempt";
         " KuzuTestApp_Bridging_Header_h " ].
Proof. split; by vm_compute. Qed.

(** ** Content of the file *)

(** C3: with the comments removed, no line of the file is a code line: every
    line is blank or a directive, and the directives are the include guard
    ([#ifndef], [#define], [#endif]) and one [#include].  The file's own text
    passes nothing on to the compiler: with an includer that includes
    nothing, the output is unchanged from every state. *)
Theorem directives_and_comments_only :
  code_lines (parse_file header_text) = []
  /\ directives (parse_file header_text)
     = [DIfndef guard; DDefine guard ""; DInclude kuzu_ref; DEndif]
  /\ length (comments header_text) = 6
  /\ forall st : pp_state,
       result_map output (process_header no_include st) = Ok (output st).
Proof.
  split; [by vm_compute|]. split; [by vm_compute|]. split; [by vm_compute|].
  intros st. rewrite process_header_no_include. cbn.
  by destruct (is_defined guard st).
Qed.

(** C6 fails: the file does not have 10 lines. *)
Lemma header_is_not_ten_lines : length (text_lines header_text) <> 10.
Proof. vm_compute. discriminate. Qed.

(** C6, amended: the file has 11 lines.  It holds 10 line feeds; the eleventh
    line, the [#endif], is not terminated by one. *)
Theorem header_line_count :
  length (text_lines header_text) = 11
  /\ newline_count header_text = 10
  /\ last (text_lines header_text)
     = Some "#endif /* KuzuTestApp_Bridging_Header_h */ ".
Proof. repeat split; by vm_compute. Qed.

(** ** Scheduling *)

(** C9: outside its comments the file is made of six words, the names of its
    four directives and the guard macro twice; none of them names a
    concurrency construct or a shared mutable object.  The one macro it
    defines has an empty replacement list and the file has no code line, so
    the file declares no object and adds no program text of its own to a
    translation unit, neither directly nor through a macro: every
    interleaving of what the file adds with the operations of another source
    is that other sequence, unchanged. *)
Theorem no_concurrency_constructs :
  file_words (parse_file header_text)
  = ["ifndef"; guard; "define"; guard; "include"; "endif"]
  /\ existsb is_concurrency_word (file_words (parse_file header_text))
     = false
  /\ macro_bodies (parse_file header_text) = [""]
  /\ code_lines (parse_file header_text) = []
  /\ contributed_text (parse_file header_text) = []
  /\ forall other t : list string,
       interleave (contributed_text (parse_file header_text)) other t ->
       t = other.
Proof.
  split; [by vm_compute|]. split; [by vm_compute|]. split; [by vm_compute|].
  split; [by vm_compute|]. split; [by vm_compute|].
  rewrite parse_header. change (contributed_text _) with (@nil string).
  intros other t H.
  remember [] as own eqn:Hown. induction H as [|x l r t H IH|x l r t H IH].
  - reflexivity.
  - discriminate Hown.
  - f_equal. by apply IH.
Qed.

(** The same reading tells a header apart whose directives bring in a lock:
    it has a concurrency word and adds program text through its macro. *)
Example locking_header_is_told_apart :
  existsb is_concurrency_word (file_words (parse_file locking_header_text))
  = true
  /\ code_lines (parse_file locking_header_text) = []
  /\ contributed_text (parse_file locking_header_text)
     = ["pthread_mutex_lock(&kuzu_mutex)"].
Proof. repeat split; by vm_compute. Qed.

(** ** The macro environment *)

(** C8: the one macro the file's directives define is the guard, and they
    undefine none.  With an includer that includes nothing (so that only the
    file's own text acts), processing the header from any state succeeds,
    leaves the guard defined, and leaves every other macro and the output as
    they were: the macro environment is unchanged when the guard was defined
    already, and is extended by the guard, with an empty body, otherwise.
    With any includer, the state in which kuzu.h is included differs from the
    state before the header by the guard only. *)
Theorem guard_is_only_macro_change :
  defined_macros (parse_file header_text) = [guard]
  /\ undefined_macros (parse_file header_text) = []
  /\ (forall st : pp_state, exists st' : pp_state,
       process_header no_include st = Ok st'
       /\ is_defined guard st' = true
       /\ delete guard (macros st') = delete guard (macros st)
       /\ macros st'
          = (if is_defined guard st then macros st
             else <[guard := ""]> (macros st))
       /\ output st' = output st)
  /\ forall (inc : includer) (st : pp_state),
       process_header inc st
       = if is_defined guard st then Ok st
         else inc kuzu_ref (PPState (<[guard := ""]> (macros st)) (output st)).
Proof.
  split; [by vm_compute|]. split; [by vm_compute|].
  split; [|intros inc st; apply process_header_eq].
  intros st. eexists. split; [apply process_header_no_include|].
  destruct (is_defined guard st) eqn:Hdef.
  - by rewrite Hdef.
  - rewrite is_defined_define. cbn [define macros output].
    by rewrite delete_insert_eq.
Qed.

(** ** Frame *)

(** C5 fails: from the empty state, with the stand-in file system, processing
    the header leaves the guard macro defined, whereas making the symbols of
    kuzu.h visible (including it directly) leaves it undefined: the state
    changes by more than the symbols of the included header. *)
Lemma guard_macro_is_a_side_effect :
  result_map (is_defined guard) (process_header sample_includer empty_state)
  = Ok true
  /\ result_map (is_defined guard)
       (process_file sample_includer direct_include_text empty_state)
     = Ok false
  /\ process_header sample_includer empty_state
     <> process_file sample_includer direct_include_text empty_state.
Proof.
  split; [by vm_compute|]. split; [by vm_compute|].
  intros H. apply (f_equal (result_map (is_defined guard))) in H.
  vm_compute in H. discriminate H.
Qed.

(** C5, amended: from every compilation state and for every includer,
    processing the header either finds the guard defined and returns the
    state as it is, or it defines the guard and then includes kuzu.h, with
    the result of that inclusion (a state or an error) as its own result.
    The header's text adds nothing to the output and raises no error of its
    own. *)
Theorem header_frame (inc : includer) (st : pp_state) :
  (is_defined guard st = true /\ process_header inc st = Ok st)
  \/ (is_defined guard st = false
      /\ process_header inc st = inc kuzu_ref (define guard "" st)
      /\ output (define guard "" st) = output st
      /\ macros (define guard "" st) = <[guard := ""]> (macros st)).
Proof.
  rewrite process_header_eq.
  destruct (is_defined guard st); [left; done|right]. done.
Qed.

(** ** The header against a direct include *)

(** C2 fails: in a translation unit that has the guard macro defined, the
    header passes nothing to the compiler, while a direct include of kuzu.h
    passes the declaration of the stand-in header. *)
Lemma guarded_unit_sees_nothing :
  result_map output
    (process_header sample_includer (define guard "" empty_state))
  = Ok []
  /\ result_map output
       (process_file sample_includer direct_include_text
          (define guard "" empty_state))
     = Ok ["typedef struct kuzu_database kuzu_database;"]
  /\ result_map output
       (process_header sample_includer (define guard "" empty_state))
     <> result_map output
          (process_file sample_includer direct_include_text
             (define guard "" empty_state)).
Proof. repeat split; by vm_compute. Qed.

(** C2, amended: in every translation unit in which the guard macro is not
    defined when the header is processed, and for a kuzu.h whose text does
    not depend on that macro, the header passes to the compiler exactly what
    a direct include of kuzu.h passes: processing the header is including
    kuzu.h with the guard defined, and the header's own text adds nothing to
    the output. *)
Theorem first_inclusion_equals_direct_include
    (inc : includer) (st : pp_state) :
  guard_blind inc ->
  is_defined guard st = false ->
  result_map output (process_header inc st)
  = result_map output (process_file inc direct_include_text st)
  /\ process_header inc st = inc kuzu_ref (define guard "" st)
  /\ result_map output (process_header no_include st) = Ok (output st).
Proof.
  intros Hblind Hundef.
  rewrite process_header_no_include, !process_header_eq, process_direct_eq.
  rewrite Hundef. repeat split. apply Hblind.
Qed.

Lemma first_inclusion_equals_direct_include_witness :
  guard_blind sample_includer
  /\ is_defined guard empty_state = false
  /\ result_map output (process_header sample_includer empty_state)
     = result_map output
         (process_file sample_includer direct_include_text empty_state).
Proof.
  split; [exact sample_guard_blind|]. split; [reflexivity|].
  exact (proj1 (first_inclusion_equals_direct_include
                  sample_includer empty_state
                  sample_guard_blind eq_refl)).
Defined.

(** ** Repeated inclusion *)

Section Reinclusion.

Variable inc : includer.
Hypothesis Hkeeps : keeps_guard inc.

(** After the header was processed, the guard is defined. *)
Lemma guard_defined_after (st st1 : pp_state) :
  process_header inc st = Ok st1 -> is_defined guard st1 = true.
Proof.
  rewrite process_header_eq.
  destruct (is_defined guard st) eqn:Hdef; intros H.
  - injection H as <-. exact Hdef.
  - eapply Hkeeps; [exact H|]. apply is_defined_define.
Qed.

(** A state with the guard defined is a fixed point of the header. *)
Lemma reinclusion_is_empty (st1 : pp_state) :
  is_defined guard st1 = true -> process_header inc st1 = Ok st1.
Proof. intros H. by rewrite process_header_eq, H. Qed.

Lemma process_times_fixed (n : nat) (st1 : pp_state) :
  is_defined guard st1 = true -> process_times inc n st1 = Ok st1.
Proof.
  intros H. induction n as [|n IH]; [reflexivity|].
  cbn [process_times]. rewrite reinclusion_is_empty by exact H. exact IH.
Qed.

Lemma process_times_after_first (n : nat) (st : pp_state) :
  process_times inc (S n) st = process_header inc st.
Proof.
  cbn [process_times].
  destruct (process_header inc st) as [st1|e] eqn:Hfirst; [|reflexivity].
  cbn [result_bind]. apply process_times_fixed.
  by apply guard_defined_after with st.
Qed.

End Reinclusion.




(** * Further properties of the guard *)

(** ** Macros kept by a run *)

Lemma is_defined_define_other (n m b : string) (st : pp_state) :
  is_defined n st = true -> is_defined n (define m b st) = true.
Proof.
  unfold is_defined, define. cbn. intros H.
  destruct (decide (m = n)) as [->|Hne].
  - by rewrite lookup_insert_eq.
  - by rewrite lookup_insert_ne.
Qed.

Lemma is_defined_undefine_ne (n m : string) (st : pp_state) :
  m <> n -> is_defined n (undefine m st) = is_defined n st.
Proof.
  intros Hne. unfold is_defined, undefine. cbn. by rewrite lookup_delete_ne.
Qed.

Lemma is_defined_undefine (n : string) (st : pp_state) :
  is_defined n (undefine n st) = false.
Proof. unfold is_defined, undefine. cbn. by rewrite lookup_delete_eq. Qed.

Section KeptMacro.

Variable inc : includer.
Variable n : string.
Hypothesis Hinc : keeps_macro n inc.

Lemma exec_live_keeps_defined (d : directive) (st st' : pp_state) :
  undefines n (LDirective d) = false ->
  exec_live inc d st = Ok st' ->
  is_defined n st = true -> is_defined n st' = true.
Proof.
  intros Hd Hexec Hdef. destruct d; cbn in Hexec; try discriminate Hexec;
    try (injection Hexec as <-; exact Hdef).
  - injection Hexec as <-. by apply is_defined_define_other.
  - injection Hexec as <-. cbn in Hd. apply String.eqb_neq in Hd.
    by rewrite is_defined_undefine_ne.
  - by apply (Hinc h st st').
Qed.

Lemma step_keeps_defined (l : line) (stack stack' : list frame)
    (st st' : pp_state) :
  undefines n l = false ->
  step inc l stack st = Ok (stack', st') ->
  is_defined n st = true -> is_defined n st' = true.
Proof.
  intros Hl Hstep Hdef. destruct l as [|d|t]; cbn in Hstep.
  - by injection Hstep as _ <-.
  - assert (Hskip : forall k, Ok (k, st) = Ok (stack', st') ->
                              is_defined n st' = true).
    { intros k Hk. by injection Hk as _ <-. }
    assert (Hlive : (if live stack
                     then result_map (pair stack) (exec_live inc d st)
                     else Ok (stack, st)) = Ok (stack', st') ->
                    is_defined n st' = true).
    { destruct (live stack); [|apply Hskip].
      destruct (exec_live inc d st) as [st1|e] eqn:Hexec; [|discriminate].
      cbn. intros Hk. injection Hk as _ <-.
      by apply (exec_live_keeps_defined d st st1). }
    destruct d; cbn in Hstep; try (by apply Hlive);
      try (by eapply Hskip).
    + destruct stack as [|f k]; [discriminate|].
      destruct (f_else f); [discriminate|]. by eapply Hskip.
    + destruct stack as [|f k]; [discriminate|]. by eapply Hskip.
    + destruct (live stack); [discriminate|].
      destruct (opens_group name); [by eapply Hskip|].
      destruct (String.eqb name "elif" && outer_live stack);
        [discriminate|by eapply Hskip].
  - destruct (live stack); by injection Hstep as _ <-.
Qed.

Lemma run_keeps_defined (ls : list line) :
  forallb (fun l => negb (undefines n l)) ls = true ->
  forall (stack : list frame) (st st' : pp_state),
    run inc ls stack st = Ok st' ->
    is_defined n st = true -> is_defined n st' = true.
Proof.
  induction ls as [|l ls IH]; intros Hls stack st st' Hrun Hdef.
  - cbn in Hrun. destruct stack; [|discriminate]. by injection Hrun as <-.
  - cbn in Hls. apply andb_prop in Hls as [Hl Hls].
    apply negb_true_iff in Hl. cbn [run] in Hrun.
    destruct (step inc l stack st) as [[stack1 st1]|e] eqn:Hstep;
      [|discriminate].
    apply (IH Hls stack1 st1 st' Hrun).
    by apply (step_keeps_defined l stack stack1 st st1).
Qed.

End KeptMacro.

Lemma sample_keeps_macro (n : string) : keeps_macro n sample_includer.
Proof.
  intros h st st' H Hdef. unfold sample_includer in H.
  cbn [fs_includer] in H. unfold sample_fs in H.
  destruct (decide (kuzu_path = h_path h)) as [Heq|Hne].
  - rewrite <- Heq, lookup_singleton_eq in H.
    change (Ok (emit "typedef struct kuzu_database kuzu_database;" st)
            = Ok st') in H.
    injection H as <-. exact Hdef.
  - rewrite lookup_singleton_ne in H by exact Hne. discriminate H.
Qed.

(** ** Inclusion again, later in the translation unit *)



(** X2: for a kuzu.h that does not undefine the guard, the states the header
    leaves as they are, are exactly the states in which the guard is
    defined: from any other state a successful processing changes the
    state. *)
Theorem unchanged_iff_guard_defined (inc : includer) (st : pp_state) :
  keeps_guard inc ->
  process_header inc st = Ok st <-> is_defined guard st = true.
Proof.
  intros Hkeeps. split.
  - apply (guard_defined_after inc Hkeeps).
  - apply reinclusion_is_empty.
Qed.

Lemma unchanged_iff_guard_defined_witness :
  keeps_guard sample_includer
  /\ (process_header sample_includer sample_first_state
      = Ok sample_first_state
      <-> is_defined guard sample_first_state = true).
Proof.
  split; [exact sample_keeps_guard|].
  exact (unchanged_iff_guard_defined sample_includer sample_first_state
           sample_keeps_guard).
Defined.

(** ** Errors *)

(** X3: processing the header fails exactly when the guard is not defined
    and the inclusion of kuzu.h, with the guard defined, fails; the error is
    that of the inclusion.  With the guard defined the header succeeds
    whatever the includer does, a missing kuzu.h included. *)
Theorem header_error_iff (inc : includer) (st : pp_state) (e : pp_error) :
  process_header inc st = Err e
  <-> is_defined guard st = false
      /\ inc kuzu_ref (define guard "" st) = Err e.
Proof.
  rewrite process_header_eq. destruct (is_defined guard st); split.
  - discriminate.
  - intros [Hdef _]. discriminate Hdef.
  - intros H. by split.
  - by intros [_ H].
Qed.

(** ** Changing the guard by hand *)

(** X4: an [#undef] of the guard enables the header again: processed right
    after it, the header includes kuzu.h once more, in the state in which the
    guard is defined with an empty body, whatever the guard was before. *)
Theorem undef_reenables_header (inc : includer) (st : pp_state) :
  process_header inc (undefine guard st)
  = inc kuzu_ref (define guard "" st).
Proof.
  rewrite process_header_eq, is_defined_undefine.
  f_equal. unfold define, undefine. cbn. by rewrite insert_delete_eq.
Qed.
